(** * The iris prediction service (app.py), embedded and verified

    The repository is one Flask module: a helper [iris_prediction] that
    unpickles a model from "model.pkl", asks it for one prediction and wraps
    the label in a dictionary, and two views, [index] and [predict].

    Python values are modelled by [pyval] (the values [json.loads] can
    produce), exceptions by [exn] tagged with the statement that raised them,
    and what the code does (opening, reading and closing the pickle, building
    the batch, calling the predictor) by a state-and-exception monad over
    [world].  The code that comes out of the pickle runs on the state of the
    process, which it may read and change. *)

From Stdlib Require Import ZArith List String Ascii Bool Lia.
From Stdlib Require Import Permutation.
From Stdlib.Strings Require Import Byte.
From Stdlib Require Import DecimalString DecimalPos DecimalZ.
Import ListNotations.
Local Open Scope string_scope.
Local Open Scope Z_scope.
Set Warnings "-register-all".

(** ** Python values *)

(** The values that flow through the handler.  A float is kept as the 64 bits
    of its IEEE-754 double; a dict as its items in insertion order (distinct
    keys, all strings, as [json.loads] builds them); a string as its
    characters, code points below 256. *)
Inductive pyval : Type :=
| PyNone
| PyBool (b : bool)
| PyInt (z : Z)
| PyFloat (bits : Z)
| PyStr (s : string)
| PyList (xs : list pyval)
| PyDict (d : list (string * pyval)).

(** ** Exceptions *)

Inductive type_error : Type :=
| NotAMapping                          (* argument after ** must be a mapping *)
| UnexpectedKeyword (k : string)       (* got an unexpected keyword argument *)
| MissingArguments (ks : list string)  (* missing required positional arguments *)
| NotSubscriptable                     (* object is not subscriptable *)
| IntArgument.                         (* int() argument must be a string or a number *)

Inductive exn : Type :=
| TypeError (why : type_error)
| ValueError
| OverflowError
| IndexError
| KeyError
| AttributeError (attr : string)
| FileNotFoundError
| PermissionError
| HTTPError (code : nat)       (* werkzeug's HTTPException, raised by Flask *)
| LibraryError (cls : string). (* any other class, raised inside a library *)

(** The statement of app.py at which an exception is raised. *)
Inductive site : Type :=
| AtGetJson        (* request.get_json() *)
| AtBinding        (* the call iris_prediction( ** request_json ) *)
| AtOpen           (* open("model.pkl", "rb") *)
| AtLoad           (* joblib.load(f) *)
| AtPredictLookup  (* model.predict *)
| AtPredict        (* model.predict(X) *)
| AtSubscript      (* predictions[0] *)
| AtInt            (* int(...) *)
| AtDumps.         (* json.dumps(result) *)

Record failure : Type := Failure { at_site : site; exc : exn }.

Inductive result (A : Type) : Type :=
| Ok (a : A)
| Raise (f : failure).
Arguments Ok {A} a.
Arguments Raise {A} f.

(** The two error kinds the specification names, by where the failure
    arises: a MalformedRequest where the request fields are extracted, an
    ArtifactUnavailable where the pickle is opened or deserialised. *)
Inductive error_kind : Type :=
| MalformedRequest
| ArtifactUnavailable
| OtherFailure.

Definition classify (f : failure) : error_kind :=
  match at_site f with
  | AtGetJson | AtBinding => MalformedRequest
  | AtOpen | AtLoad => ArtifactUnavailable
  | _ => OtherFailure
  end.

(** ** Objects that joblib.load can return *)

(** The state of the process that the code of a library or of a pickle can
    read and change: module globals, the state of a random generator, by
    name. *)
Definition pstate : Type := list (string * pyval).

(** Either an estimator, with its [predict] method, or a plain value, which
    has no attribute [predict].  The method is code of the pickle: it runs
    on the state of the process, answers or raises, and leaves a state. *)
Inductive pyobj : Type :=
| Estimator (predict_method : pyval -> pstate -> (exn + pyval) * pstate)
| Plain (v : pyval).

(** ** The world: files, open handles, the state of the process, the log *)

Inductive file : Type :=
| Absent
| Denied
| Regular (content : list byte).

Inductive event : Type :=
| EvOpen (path mode : string) (fd : nat)
| EvOpenFailed (path mode : string) (e : exn)
| EvRead (fd : nat)
| EvClose (fd : nat)
| EvAssemble (X : pyval)
| EvPredict (X : pyval).

(** [handles] maps each open descriptor to the content of the file it was
    opened on; [log] is the chronological record of what the handlers did;
    [process] is the state that library code runs on. *)
Record world : Type := World {
  files : string -> file;
  handles : list (nat * list byte);
  log : list event;
  process : pstate
}.

Definition emit (e : event) (w : world) : world :=
  World (files w) (handles w) (log w ++ [e]) (process w).

(** ** The monad of the handlers: state passing with exceptions *)

Definition M (A : Type) : Type := world -> result A * world.

Definition ret {A} (a : A) : M A := fun w => (Ok a, w).

Definition raise {A} (s : site) (e : exn) : M A :=
  fun w => (Raise (Failure s e), w).

Definition bind {A B} (c : M A) (k : A -> M B) : M B :=
  fun w =>
    match c w with
    | (Ok a, w1) => k a w1
    | (Raise f, w1) => (Raise f, w1)
    end.

Notation "x <- c ;; k" := (bind c (fun x => k))
  (at level 61, c at next level, right associativity).

(** A built-in that answers or raises, applied at statement [s]. *)
Definition lift {A} (s : site) (r : exn + A) : M A :=
  match r with
  | inl e => raise s e
  | inr a => ret a
  end.

(** Library code run at statement [s]: it works on the state of the process
    and leaves the state it reached, also when it raises.  (It is taken not
    to touch the files and descriptors of the service.) *)
Definition call_library {A} (s : site)
    (code : pstate -> (exn + A) * pstate) : M A :=
  fun w =>
    (match fst (code (process w)) with
     | inl e => Raise (Failure s e)
     | inr a => Ok a
     end,
     World (files w) (handles w) (log w) (snd (code (process w)))).

(** ** Python built-ins the handler applies *)

(** [predictions[0]]: the first item of a list, the first character of a
    string; a dict is asked for the key 0, which no string key equals; nothing
    else is subscriptable. *)
Definition py_getitem0 (v : pyval) : exn + pyval :=
  match v with
  | PyList (x :: _) => inr x
  | PyList [] => inl IndexError
  | PyStr (String c _) => inr (PyStr (String c EmptyString))
  | PyStr EmptyString => inl IndexError
  | PyDict _ => inl KeyError
  | PyNone | PyBool _ | PyInt _ | PyFloat _ => inl (TypeError NotSubscriptable)
  end.

(** [int(x)] on a float: truncation toward zero of the double with bit
    pattern [bits]; OverflowError on an infinity, ValueError on a NaN. *)
Definition float_trunc (bits : Z) : exn + Z :=
  let sign := Z.testbit bits 63 in
  let e := Z.land (Z.shiftr bits 52) 2047 in
  let m := Z.land bits (2 ^ 52 - 1) in
  if e =? 2047 then (if m =? 0 then inl OverflowError else inl ValueError)
  else if e =? 0 then inr 0
  else
    let mag := Z.shiftl (m + 2 ^ 52) (e - 1075) in
    inr (if sign then - mag else mag).

(** The blanks [int()] and [float()] strip from the ends of a string: the
    ASCII ones (tab to carriage return, space) and, of the characters above
    127, the Unicode blanks, here U+0085 and U+00A0. *)
Definition is_space (c : ascii) : bool :=
  let n := nat_of_ascii c in
  ((9 <=? n) && (n <=? 13) || (n =? 32) || (n =? 133) || (n =? 160))%nat.

Definition is_digit (c : ascii) : bool :=
  let n := nat_of_ascii c in ((48 <=? n) && (n <=? 57))%nat.

Definition digit_value (c : ascii) : Z := Z.of_nat (nat_of_ascii c) - 48.

Fixpoint lstrip (s : string) : string :=
  match s with
  | String c r => if is_space c then lstrip r else s
  | EmptyString => EmptyString
  end.

Fixpoint rstrip (s : string) : string :=
  match s with
  | EmptyString => EmptyString
  | String c r =>
      match rstrip r with
      | EmptyString => if is_space c then EmptyString else String c EmptyString
      | r' => String c r'
      end
  end.

(** Decimal digits, single underscores allowed between two digits.
    [after_digit] says whether the previous character was a digit. *)
Fixpoint digits_value (s : string) (acc : Z) (after_digit : bool) : option Z :=
  match s with
  | EmptyString => if after_digit then Some acc else None
  | String c r =>
      if is_digit c then digits_value r (10 * acc + digit_value c) true
      else if Ascii.eqb c "_" && after_digit then digits_value r acc false
      else None
  end.

Fixpoint count_digits (s : string) : Z :=
  match s with
  | EmptyString => 0
  | String c r => (if is_digit c then 1 else 0) + count_digits r
  end.

(** The interpreter's default limit on the digits of an int converted from
    or to a decimal string ([sys.get_int_max_str_digits()]). *)
Definition int_max_str_digits : Z := 4300.

(** The digits of a literal, within the limit. *)
Definition limited_digits (s : string) : option Z :=
  if int_max_str_digits <? count_digits s then None
  else digits_value s 0 false.

(** [int(s)] on a string, base ten: surrounding blanks, an optional sign,
    then digits, no more of them than the limit; [None] is a ValueError. *)
Definition int_of_str (s : string) : option Z :=
  match rstrip (lstrip s) with
  | String "+" r => limited_digits r
  | String "-" r => option_map Z.opp (limited_digits r)
  | t => limited_digits t
  end.

Definition py_int (v : pyval) : exn + Z :=
  match v with
  | PyInt z => inr z
  | PyBool b => inr (if b then 1 else 0)
  | PyFloat bits => float_trunc bits
  | PyStr s => match int_of_str s with Some z => inr z | None => inl ValueError end
  | PyNone | PyList _ | PyDict _ => inl (TypeError IntArgument)
  end.

(** ** json.dumps *)

Definition dquote : string := String "034" EmptyString.

Definition hex_digit (n : nat) : ascii :=
  ascii_of_nat (if (n <? 10)%nat then 48 + n else 87 + n).

(** One character of a string under [ensure_ascii]: the short escapes, the
    printable ASCII characters as they are, anything else as a \u escape. *)
Definition escape_char (c : ascii) : string :=
  let n := nat_of_ascii c in
  if (n =? 34)%nat then "\" ++ dquote
  else if (n =? 92)%nat then "\\"
  else if (n =? 8)%nat then "\b"
  else if (n =? 12)%nat then "\f"
  else if (n =? 10)%nat then "\n"
  else if (n =? 13)%nat then "\r"
  else if (n =? 9)%nat then "\t"
  else if ((32 <=? n) && (n <=? 126))%nat then String c EmptyString
  else "\u00" ++ String (hex_digit (n / 16)) (String (hex_digit (n mod 16)) EmptyString).

Fixpoint escape (s : string) : string :=
  match s with
  | EmptyString => EmptyString
  | String c r => escape_char c ++ escape r
  end.

Definition json_str (s : string) : string := dquote ++ escape s ++ dquote.

(** The decimal digits of an int, with its sign. *)
Definition decimal (z : Z) : string := NilZero.string_of_int (Z.to_int z).

(** The least int with more digits than the limit allows. *)
Definition int_str_limit : Z := 10 ^ int_max_str_digits.

(** An int has more digits than the limit allows. *)
Definition too_long (z : Z) : bool := int_str_limit <=? Z.abs z.

(** An int as [json.dumps] writes it, through [int.__repr__]: a ValueError
    when it has more digits than the limit. *)
Definition json_int (z : Z) : exn + string :=
  if too_long z then inl ValueError else inr (decimal z).

(** The text of a response with the label [z]. *)
Definition response_of (z : Z) : string :=
  "{" ++ dquote ++ "predicted_class" ++ dquote ++ ": " ++ decimal z ++ "}".

(** ** Sample artifacts, worlds and requests *)

(** Code that neither reads nor changes the state of the process. *)
Definition stateless (f : pyval -> exn + pyval)
    : pyval -> pstate -> (exn + pyval) * pstate :=
  fun X st => (f X, st).

(** A depth-two decision tree on petal length and petal width, as a
    classifier fitted on the iris data comes out: class 0 below 2.45, then
    class 1 below 1.75, else class 2.  It answers on rows of four
    non-negative floats (whose order is the order of their bit patterns) and
    raises a ValueError on anything else. *)
Definition tree_label (row : pyval) : option pyval :=
  match row with
  | PyList [PyFloat _; PyFloat _; PyFloat petal_length; PyFloat petal_width] =>
      Some (PyInt (if petal_length <? 0x400399999999999A then 0
                   else if petal_width <? 0x3FFC000000000000 then 1 else 2))
  | _ => None
  end.

Fixpoint tree_labels (rows : list pyval) : exn + list pyval :=
  match rows with
  | [] => inr []
  | row :: r =>
      match tree_label row, tree_labels r with
      | Some l, inr ls => inr (l :: ls)
      | _, _ => inl ValueError
      end
  end.

Definition tree_predict (X : pyval) : exn + pyval :=
  match X with
  | PyList rows =>
      match tree_labels rows with
      | inr ls => inr (PyList ls)
      | inl ex => inl ex
      end
  | _ => inl ValueError
  end.

(** A classifier that answers class 0 for every row and never looks at the
    features. *)
Definition constant_predict (X : pyval) : exn + pyval :=
  match X with
  | PyList rows => inr (PyList (map (fun _ => PyInt 0) rows))
  | _ => inl ValueError
  end.

(** A classifier whose module keeps a count of the calls made in this
    process, and whose label is that count. *)
Definition calls (st : pstate) : Z :=
  match find (fun kv => String.eqb (fst kv) "calls") st with
  | Some (_, PyInt n) => n
  | _ => 0
  end.

Definition counting_predict (X : pyval) (st : pstate)
    : (exn + pyval) * pstate :=
  (inr (PyList [PyInt (calls st)]), ("calls", PyInt (calls st + 1)) :: st).

(** A classifier whose one label is an int of 4301 digits. *)
Definition long_label_predict (X : pyval) : exn + pyval :=
  inr (PyList [PyInt int_str_limit]).

(** A deserialiser for five one-byte pickles: the tree, the constant
    classifier, a pickled empty dict, the counting classifier and the
    classifier with the long label; other bytes do not unpickle. *)
Definition sample_load (content : list byte) (st : pstate)
    : (exn + pyobj) * pstate :=
  (match content with
   | [x00] => inr (Estimator (stateless tree_predict))
   | [x01] => inr (Estimator (stateless constant_predict))
   | [x02] => inr (Plain (PyDict []))
   | [x03] => inr (Estimator counting_predict)
   | [x04] => inr (Estimator (stateless long_label_predict))
   | _ => inl (LibraryError "UnpicklingError")
   end, st).

Definition sample_repr (bits : Z) : string := "0.0".

(** The world in which "model.pkl" is [f], nothing is open, nothing has
    happened and the process holds no state. *)
Definition disk (f : file) : world :=
  World (fun path => if String.eqb path "model.pkl" then f else Absent) [] [] [].

(** The measurements 5.1, 3.5, 1.4, 0.2. *)
Definition setosa : list (string * pyval) :=
  [("sepal_length", PyFloat 0x4014666666666666);
   ("sepal_width", PyFloat 0x400C000000000000);
   ("petal_length", PyFloat 0x3FF6666666666666);
   ("petal_width", PyFloat 0x3FC999999999999A)].

(** The same fields with null for the sepal length. *)
Definition null_sepal_length : list (string * pyval) :=
  [("sepal_length", PyNone);
   ("sepal_width", PyFloat 0x400C000000000000);
   ("petal_length", PyFloat 0x3FF6666666666666);
   ("petal_width", PyFloat 0x3FC999999999999A)].

(** The petal width left out. *)
Definition no_petal_width : list (string * pyval) :=
  [("sepal_length", PyFloat 0x4014666666666666);
   ("sepal_width", PyFloat 0x400C000000000000);
   ("petal_length", PyFloat 0x3FF6666666666666)].

(** The measurements 6.3, 3.3, 6.0, 2.5. *)
Definition virginica : list (string * pyval) :=
  [("sepal_length", PyFloat 0x4019333333333333);
   ("sepal_width", PyFloat 0x400A666666666666);
   ("petal_length", PyFloat 0x4018000000000000);
   ("petal_width", PyFloat 0x4004000000000000)].

Section Libraries.

(** What the service takes from its libraries and does not define:
    [float.__repr__] on the bits of a double, and [joblib.load] on the bytes
    of the pickle, code that runs on the state of the process and answers
    the unpickled object or raises. *)
Variable float_repr : Z -> string.
Variable joblib_load : list byte -> pstate -> (exn + pyobj) * pstate.

(** [json.dumps] with its default separators; the items are written from
    left to right and the first that cannot be written raises.  (The depth
    of nesting, which the interpreter bounds, is not modelled: the handler
    serialises a dictionary of depth one.) *)
Fixpoint json_dumps (v : pyval) : exn + string :=
  match v with
  | PyNone => inr "null"
  | PyBool true => inr "true"
  | PyBool false => inr "false"
  | PyInt z => json_int z
  | PyFloat bits => inr (float_repr bits)
  | PyStr s => inr (json_str s)
  | PyList xs =>
      match
        (fix items (l : list pyval) : exn + string :=
           match l with
           | [] => inr ""
           | x :: r =>
               match json_dumps x with
               | inl e => inl e
               | inr sx =>
                   match r with
                   | [] => inr sx
                   | _ :: _ =>
                       match items r with
                       | inl e => inl e
                       | inr sr => inr (sx ++ ", " ++ sr)
                       end
                   end
               end
           end) xs
      with
      | inl e => inl e
      | inr s => inr ("[" ++ s ++ "]")
      end
  | PyDict d =>
      match
        (fix members (l : list (string * pyval)) : exn + string :=
           match l with
           | [] => inr ""
           | (k, x) :: r =>
               match json_dumps x with
               | inl e => inl e
               | inr sx =>
                   match r with
                   | [] => inr (json_str k ++ ": " ++ sx)
                   | _ :: _ =>
                       match members r with
                       | inl e => inl e
                       | inr sr => inr (json_str k ++ ": " ++ sx ++ ", " ++ sr)
                       end
                   end
               end
           end) d
      with
      | inl e => inl e
      | inr s => inr ("{" ++ s ++ "}")
      end
  end.

(** ** Keyword binding: [iris_prediction( ** request_json )] *)

(** The parameters of [iris_prediction], none with a default. *)
Definition parameters : list string :=
  ["sepal_length"; "sepal_width"; "petal_length"; "petal_width"].

Definition mem (k : string) (ks : list string) : bool :=
  existsb (String.eqb k) ks.

Fixpoint lookup (k : string) (d : list (string * pyval)) : option pyval :=
  match d with
  | [] => None
  | (k', v) :: r => if String.eqb k k' then Some v else lookup k r
  end.

Definition keys (d : list (string * pyval)) : list string := map fst d.

(** Calling a function of the four parameters on [**kwargs]: the argument
    must be a mapping; a key that names no parameter is an unexpected keyword
    argument (the first such key is the one reported); then every parameter
    must have been given. *)
Definition call_with_kwargs {A} (f : pyval -> pyval -> pyval -> pyval -> M A)
    (kwargs : pyval) : M A :=
  match kwargs with
  | PyDict d =>
      match find (fun kv => negb (mem (fst kv) parameters)) d with
      | Some (k, _) => raise AtBinding (TypeError (UnexpectedKeyword k))
      | None =>
          match lookup "sepal_length" d, lookup "sepal_width" d,
                lookup "petal_length" d, lookup "petal_width" d with
          | Some a, Some b, Some c, Some e => f a b c e
          | _, _, _, _ =>
              raise AtBinding (TypeError (MissingArguments
                (filter (fun p => negb (mem p (keys d))) parameters)))
          end
      end
  | _ => raise AtBinding (TypeError NotAMapping)
  end.

(** ** Files: [with open(path, "rb") as f] *)

(** A descriptor that no open handle uses. *)
Definition fresh_fd (hs : list (nat * list byte)) : nat :=
  S (list_max (map fst hs)).

Definition open_rb (path : string) : M nat :=
  fun w =>
    match files w path with
    | Absent =>
        (Raise (Failure AtOpen FileNotFoundError),
         emit (EvOpenFailed path "rb" FileNotFoundError) w)
    | Denied =>
        (Raise (Failure AtOpen PermissionError),
         emit (EvOpenFailed path "rb" PermissionError) w)
    | Regular content =>
        let fd := fresh_fd (handles w) in
        (Ok fd,
         World (files w) ((fd, content) :: handles w)
               (log w ++ [EvOpen path "rb" fd]) (process w))
    end.

Definition close (fd : nat) (w : world) : world :=
  World (files w)
        (filter (fun h => negb (Nat.eqb (fst h) fd)) (handles w))
        (log w ++ [EvClose fd]) (process w).

(** The [with] statement: when [open] raises, the body is not entered; once
    the file is open, it is closed when the body is left, by a normal exit or
    by an exception, which then goes on to the caller. *)
Definition with_open {A} (path : string) (body : nat -> M A) : M A :=
  fun w =>
    match open_rb path w with
    | (Ok fd, w1) => let (r, w2) := body fd w1 in (r, close fd w2)
    | (Raise f, w1) => (Raise f, w1)
    end.

Fixpoint handle_content (fd : nat) (hs : list (nat * list byte))
    : option (list byte) :=
  match hs with
  | [] => None
  | (fd', content) :: r =>
      if Nat.eqb fd fd' then Some content else handle_content fd r
  end.

(** [joblib.load(f)]: reads the open file and deserialises what it read.  (On
    a descriptor that is not open the read is an I/O operation on a closed
    file, a ValueError.) *)
Definition load (fd : nat) : M pyobj :=
  fun w =>
    match handle_content fd (handles w) with
    | Some content =>
        call_library AtLoad (joblib_load content) (emit (EvRead fd) w)
    | None => raise AtLoad ValueError w
    end.

(** [model.predict(X)]: the attribute lookup, then the call. *)
Definition call_predict (model : pyobj) (X : pyval) : M pyval :=
  match model with
  | Estimator predict_method =>
      fun w => call_library AtPredict (predict_method X) (emit (EvPredict X) w)
  | Plain _ => raise AtPredictLookup (AttributeError "predict")
  end.

(** ** app.py *)

(** Lines 20-21: the model is loaded from the file. *)
Definition load_model : M pyobj :=
  with_open "model.pkl" (fun f => load f).

(** Line 24: the matrix is built. *)
Definition assemble (X : pyval) : M pyval :=
  fun w => (Ok X, emit (EvAssemble X) w).

Definition iris_prediction
    (sepal_length sepal_width petal_length petal_width : pyval) : M pyval :=
  model <- load_model ;;
  X <- assemble
         (PyList [PyList [sepal_length; sepal_width; petal_length; petal_width]]) ;;
  predictions <- call_predict model X ;;
  first <- lift AtSubscript (py_getitem0 predictions) ;;
  prediction <- lift AtInt (py_int first) ;;
  ret (PyDict [("predicted_class", PyInt prediction)]).

Inductive http_method : Type := GET | HEAD | OPTIONS | POST | PUT | PATCH | DELETE.

(** A request as the views see it: [req_json] is what [request.get_json()]
    evaluates to on it, a parsed value or the exception Flask raises (the
    parsing of [req_data] is Flask's, outside the repository). *)
Record request : Type := Request {
  req_method : http_method;
  req_path : string;
  req_data : string;
  req_json : exn + pyval
}.

Definition get_json (req : request) : M pyval := lift AtGetJson (req_json req).

Definition index : M string := ret "Hello, world!".

Definition predict (req : request) : M string :=
  request_json <- get_json req ;;
  result <- call_with_kwargs iris_prediction request_json ;;
  lift AtDumps (json_dumps result).

Inductive endpoint : Type := EpIndex | EpPredict.

Definition method_eqb (a b : http_method) : bool :=
  match a, b with
  | GET, GET | HEAD, HEAD | OPTIONS, OPTIONS | POST, POST
  | PUT, PUT | PATCH, PATCH | DELETE, DELETE => true
  | _, _ => false
  end.

(** The methods of the rule that [@app.route(path, methods=...)] registers:
    those given, HEAD when GET is among them, and OPTIONS. *)
Definition rule_methods (methods : list http_method) : list http_method :=
  methods ++ (if existsb (method_eqb GET) methods then [HEAD] else [])
          ++ [OPTIONS].

(** The two [@app.route] decorators. *)
Definition url_map : list (string * list http_method * endpoint) :=
  [("/", rule_methods [GET], EpIndex);
   ("/predict", rule_methods [POST], EpPredict)].

Definition view_function (ep : endpoint) (req : request) : M string :=
  match ep with
  | EpIndex => index
  | EpPredict => predict req
  end.

(** What serves a request: the view of the rule that names its path and
    method, except that Flask answers OPTIONS itself, with an empty body and
    without calling the view; [None] for a request no rule names (Flask
    answers those with an error of its own). *)
Definition dispatch (req : request) : option (M string) :=
  match find (fun rule =>
                match rule with
                | (path, methods, _) =>
                    String.eqb (req_path req) path
                    && existsb (method_eqb (req_method req)) methods
                end) url_map with
  | Some (_, _, ep) =>
      if method_eqb (req_method req) OPTIONS then Some (ret "")
      else Some (view_function ep req)
  | None => None
  end.

Definition post_predict (fields : list (string * pyval)) : request :=
  Request POST "/predict" "" (inr (PyDict fields)).

Definition get_index : request :=
  Request GET "/" "not even JSON" (inl (HTTPError 415)).

(** ** Notions the claims are stated with *)


(** The keys of a JSON object are exactly the four parameter names. *)
Definition exactly_four (d : list (string * pyval)) : bool :=
  forallb (fun k => mem k parameters) (keys d)
  && forallb (fun p => mem p (keys d)) parameters.

(** The single-row batch built on line 24. *)
Definition batch (a b c e : pyval) : pyval := PyList [PyList [a; b; c; e]].

(** What lines 27-28 make of the predictor's answer. *)
Definition label_of (answer : exn + pyval) : result Z :=
  match answer with
  | inl e => Raise (Failure AtPredict e)
  | inr predictions =>
      match py_getitem0 predictions with
      | inl e => Raise (Failure AtSubscript e)
      | inr first =>
          match py_int first with
          | inl e => Raise (Failure AtInt e)
          | inr z => Ok z
          end
      end
  end.

(** What line 49 makes of a label: its response, or the ValueError of an
    int too long to write. *)
Definition response_to_label (z : Z) : result string :=
  if too_long z then Raise (Failure AtDumps ValueError)
  else Ok (response_of z).

(** What lines 27-30 and 49 make of the predictor's answer. *)
Definition response_to (answer : exn + pyval) : result string :=
  match label_of answer with
  | Raise f => Raise f
  | Ok z => response_to_label z
  end.

Definition fmap {A B} (g : A -> B) (r : result A) : result B :=
  match r with
  | Ok a => Ok (g a)
  | Raise f => Raise f
  end.

(** What one load of the pickle adds to the log. *)
Definition load_events (w : world) : list event :=
  match files w "model.pkl" with
  | Absent => [EvOpenFailed "model.pkl" "rb" FileNotFoundError]
  | Denied => [EvOpenFailed "model.pkl" "rb" PermissionError]
  | Regular _ =>
      let fd := fresh_fd (handles w) in
      [EvOpen "model.pkl" "rb" fd; EvRead fd; EvClose fd]
  end.

(** What one load of the pickle answers, read off the file as it is now and
    the state of the process as it is now. *)
Definition load_outcome (w : world) : result pyobj :=
  match files w "model.pkl" with
  | Absent => Raise (Failure AtOpen FileNotFoundError)
  | Denied => Raise (Failure AtOpen PermissionError)
  | Regular content =>
      match fst (joblib_load content (process w)) with
      | inl e => Raise (Failure AtLoad e)
      | inr model => Ok model
      end
  end.

(** The state of the process after one load of the pickle. *)
Definition load_state (w : world) : pstate :=
  match files w "model.pkl" with
  | Regular content => snd (joblib_load content (process w))
  | _ => process w
  end.

(** The artifact is missing, unreadable or does not deserialise. *)
Definition artifact_unavailable (w : world) : Prop :=
  match files w "model.pkl" with
  | Absent | Denied => True
  | Regular content => exists e, fst (joblib_load content (process w)) = inl e
  end.


(** The file at [path] is replaced (by another process; the service never
    writes). *)
Definition replace_file (path : string) (f : file) (w : world) : world :=
  World (fun p => if String.eqb p path then f else files w p)
        (handles w) (log w) (process w).

(** The world [w] with the state of the process as it is in [w']. *)
Definition with_process_of (w' w : world) : world :=
  World (files w) (handles w) (log w) (process w').

(** A request whose JSON binds the four parameters: an object whose keys are
    exactly the four names. *)
Definition binds (req : request) : bool :=
  match req_json req with
  | inr (PyDict d) => exactly_four d
  | _ => false
  end.

(** The request is accepted: it does not fail with a MalformedRequest. *)
Definition accepted (req : request) (w : world) : Prop :=
  forall f, fst (predict req w) = Raise f -> classify f <> MalformedRequest.

(** *** Coercibility to a float, as the specification speaks of it *)

(** The digits of a digit part that starts [s] are dropped: digits, with
    single underscores between two of them. *)
Fixpoint drop_digits (s : string) (after_digit : bool) : string :=
  match s with
  | EmptyString => EmptyString
  | String c r =>
      if is_digit c then drop_digits r true
      else if Ascii.eqb c "_" && after_digit then
        match r with
        | String c' _ => if is_digit c' then drop_digits r false else s
        | EmptyString => s
        end
      else s
  end.

Definition starts_with_digit (s : string) : bool :=
  match s with
  | String c _ => is_digit c
  | EmptyString => false
  end.

Definition drop_sign (s : string) : string :=
  match s with
  | String "+" r | String "-" r => r
  | _ => s
  end.

Definition lower (c : ascii) : ascii :=
  let n := nat_of_ascii c in
  if ((65 <=? n) && (n <=? 90))%nat then ascii_of_nat (n + 32) else c.

Fixpoint lowercase (s : string) : string :=
  match s with
  | EmptyString => EmptyString
  | String c r => String (lower c) (lowercase r)
  end.

(** An exponent, or nothing, ends the literal. *)
Definition exponent_ok (s : string) : bool :=
  match s with
  | EmptyString => true
  | String c r =>
      (Ascii.eqb c "e" || Ascii.eqb c "E")
      && starts_with_digit (drop_sign r)
      && String.eqb (drop_digits (drop_sign r) false) ""
  end.

(** The strings [float()] accepts: surrounding blanks, an optional sign,
    then inf, infinity or nan in any case, or a decimal literal with at least
    one digit in its integer or fraction part. *)
Definition float_literal (s : string) : bool :=
  let t := drop_sign (rstrip (lstrip s)) in
  let name := lowercase t in
  if String.eqb name "inf" || String.eqb name "infinity" || String.eqb name "nan"
  then true
  else
    let r1 := drop_digits t false in
    match r1 with
    | String "." r =>
        (starts_with_digit t || starts_with_digit r)
        && exponent_ok (drop_digits r false)
    | _ => starts_with_digit t && exponent_ok r1
    end.

(** [float(v)] answers: on a bool, a float, an int that rounds to a finite
    double, a string that spells a float; not on None, a list or a dict. *)
Definition float_coercible (v : pyval) : bool :=
  match v with
  | PyBool _ | PyFloat _ => true
  | PyInt z => Z.abs z <? 2 ^ 1024 - 2 ^ 970
  | PyStr s => float_literal s
  | PyNone | PyList _ | PyDict _ => false
  end.

(** *** The claims that fail, as they are stated *)


(** The first half of C3 at one request: accepted, so the four fields are
    there with values coercible to floats. *)
Definition accepted_values_coercible (req : request) (w : world) : Prop :=
  accepted req w ->
  exists d a b c e,
    req_json req = inr (PyDict d) /\
    lookup "sepal_length" d = Some a /\ lookup "sepal_width" d = Some b /\
    lookup "petal_length" d = Some c /\ lookup "petal_width" d = Some e /\
    float_coercible a && float_coercible b
    && float_coercible c && float_coercible e = true.

(** The second half: the four names with a value that is not coercible, so
    the request fails. *)
Definition uncoercible_value_fails (req : request) (w : world) : Prop :=
  forall d a b c e,
    req_json req = inr (PyDict d) -> exactly_four d = true ->
    lookup "sepal_length" d = Some a -> lookup "sepal_width" d = Some b ->
    lookup "petal_length" d = Some c -> lookup "petal_width" d = Some e ->
    float_coercible a && float_coercible b
    && float_coercible c && float_coercible e = false ->
    exists f, fst (predict req w) = Raise f.



(** *** Coercion to an integer, as [int()] is documented *)




(** *** The outcome of a request, step by step *)

(** What the helper answers on four values: the exception of the first
    statement that raises, or the dictionary with the label. *)
Inductive helper_outcome (w : world) (a b c e : pyval) : result pyval -> Prop :=
| ho_absent :
    files w "model.pkl" = Absent ->
    helper_outcome w a b c e (Raise (Failure AtOpen FileNotFoundError))
| ho_denied :
    files w "model.pkl" = Denied ->
    helper_outcome w a b c e (Raise (Failure AtOpen PermissionError))
| ho_corrupt content ex :
    files w "model.pkl" = Regular content ->
    fst (joblib_load content (process w)) = inl ex ->
    helper_outcome w a b c e (Raise (Failure AtLoad ex))
| ho_no_predict content v :
    files w "model.pkl" = Regular content ->
    fst (joblib_load content (process w)) = inr (Plain v) ->
    helper_outcome w a b c e
      (Raise (Failure AtPredictLookup (AttributeError "predict")))
| ho_predict_raises content p ex :
    files w "model.pkl" = Regular content ->
    fst (joblib_load content (process w)) = inr (Estimator p) ->
    fst (p (batch a b c e) (snd (joblib_load content (process w)))) = inl ex ->
    helper_outcome w a b c e (Raise (Failure AtPredict ex))
| ho_no_first content p predictions ex :
    files w "model.pkl" = Regular content ->
    fst (joblib_load content (process w)) = inr (Estimator p) ->
    fst (p (batch a b c e) (snd (joblib_load content (process w))))
    = inr predictions ->
    py_getitem0 predictions = inl ex ->
    helper_outcome w a b c e (Raise (Failure AtSubscript ex))
| ho_not_int content p predictions first ex :
    files w "model.pkl" = Regular content ->
    fst (joblib_load content (process w)) = inr (Estimator p) ->
    fst (p (batch a b c e) (snd (joblib_load content (process w))))
    = inr predictions ->
    py_getitem0 predictions = inr first ->
    py_int first = inl ex ->
    helper_outcome w a b c e (Raise (Failure AtInt ex))
| ho_label content p predictions first z :
    files w "model.pkl" = Regular content ->
    fst (joblib_load content (process w)) = inr (Estimator p) ->
    fst (p (batch a b c e) (snd (joblib_load content (process w))))
    = inr predictions ->
    py_getitem0 predictions = inr first ->
    py_int first = inr z ->
    helper_outcome w a b c e (Ok (PyDict [("predicted_class", PyInt z)])).

(** What the view answers: the exception of [get_json], the TypeError of the
    binding, the exception of the helper, the exception of [json.dumps] on
    the helper's result, or the text [json.dumps] makes of it. *)
Inductive predict_outcome (req : request) (w : world) : result string -> Prop :=
| po_get_json ex :
    req_json req = inl ex ->
    predict_outcome req w (Raise (Failure AtGetJson ex))
| po_not_mapping v :
    req_json req = inr v ->
    (forall d, v <> PyDict d) ->
    predict_outcome req w (Raise (Failure AtBinding (TypeError NotAMapping)))
| po_unexpected d k :
    req_json req = inr (PyDict d) ->
    In k (keys d) -> ~ In k parameters ->
    predict_outcome req w
      (Raise (Failure AtBinding (TypeError (UnexpectedKeyword k))))
| po_missing d ks :
    req_json req = inr (PyDict d) ->
    (forall k, In k (keys d) -> In k parameters) ->
    ks <> [] ->
    (forall k, In k ks <-> In k parameters /\ ~ In k (keys d)) ->
    predict_outcome req w
      (Raise (Failure AtBinding (TypeError (MissingArguments ks))))
| po_helper_raises d a b c e f :
    req_json req = inr (PyDict d) ->
    (forall k, In k (keys d) <-> In k parameters) ->
    lookup "sepal_length" d = Some a -> lookup "sepal_width" d = Some b ->
    lookup "petal_length" d = Some c -> lookup "petal_width" d = Some e ->
    helper_outcome w a b c e (Raise f) ->
    predict_outcome req w (Raise f)
| po_dumps_raises d a b c e r ex :
    req_json req = inr (PyDict d) ->
    (forall k, In k (keys d) <-> In k parameters) ->
    lookup "sepal_length" d = Some a -> lookup "sepal_width" d = Some b ->
    lookup "petal_length" d = Some c -> lookup "petal_width" d = Some e ->
    helper_outcome w a b c e (Ok r) ->
    json_dumps r = inl ex ->
    predict_outcome req w (Raise (Failure AtDumps ex))
| po_response d a b c e r body :
    req_json req = inr (PyDict d) ->
    (forall k, In k (keys d) <-> In k parameters) ->
    lookup "sepal_length" d = Some a -> lookup "sepal_width" d = Some b ->
    lookup "petal_length" d = Some c -> lookup "petal_width" d = Some e ->
    helper_outcome w a b c e (Ok r) ->
    json_dumps r = inr body ->
    predict_outcome req w (Ok body).

(** What the TypeError of a binding says about the keys of the object. *)
Definition binding_error (d : list (string * pyval)) (why : type_error) : Prop :=
  match why with
  | UnexpectedKeyword k => In k (keys d) /\ ~ In k parameters
  | MissingArguments ks =>
      (forall k, In k (keys d) -> In k parameters) /\ ks <> [] /\
      (forall k, In k ks <-> In k parameters /\ ~ In k (keys d))
  | _ => False
  end.

(** *** Counting what a request does *)

Definition is_open_attempt (ev : event) : bool :=
  match ev with
  | EvOpen _ _ _ | EvOpenFailed _ _ _ => true
  | _ => false
  end.

Definition is_predict_call (ev : event) : bool :=
  match ev with
  | EvPredict _ => true
  | _ => false
  end.

(** ** Lemmas on the pieces *)

Opaque too_long int_str_limit.

Lemma fresh_fd_above (hs : list (nat * list byte)) (h : nat * list byte) :
  In h hs -> (fst h < fresh_fd hs)%nat.
Proof.
  intros Hin. unfold fresh_fd.
  assert (Hle : (fst h <= list_max (map fst hs))%nat).
  { induction hs as [|x r IH]; [destruct Hin|].
    simpl. destruct Hin as [->|Hin]; [lia|]. specialize (IH Hin). lia. }
  lia.
Qed.

Lemma filter_fresh (hs : list (nat * list byte)) :
  filter (fun h => negb (Nat.eqb (fst h) (fresh_fd hs))) hs = hs.
Proof.
  assert (Hgen : forall n (l : list (nat * list byte)),
            (forall h, In h l -> (fst h < n)%nat) ->
            filter (fun h => negb (Nat.eqb (fst h) n)) l = l).
  { intros n l. induction l as [|x r IH]; intros Hlt; [reflexivity|].
    simpl. pose proof (Hlt x (or_introl eq_refl)) as Hx.
    destruct (Nat.eqb_spec (fst x) n) as [Heq|_]; [lia|].
    simpl. f_equal. apply IH. intros h Hh. apply Hlt. now right. }
  apply Hgen. intros h Hh. now apply fresh_fd_above.
Qed.

Lemma load_model_run (w : world) :
  load_model w =
  (load_outcome w,
   World (files w) (handles w) (log w ++ load_events w) (load_state w)).
Proof.
  unfold load_model, with_open, open_rb, load_outcome, load_events, load_state.
  destruct (files w "model.pkl") as [| |content]; try reflexivity.
  unfold load. cbn [handles handle_content]. rewrite Nat.eqb_refl.
  unfold call_library, close, emit. cbn [files handles log process fst snd].
  cbn [filter fst]. rewrite Nat.eqb_refl. cbn [negb].
  rewrite filter_fresh, <- !app_assoc. reflexivity.
Qed.

(** One run of the helper, statement by statement. *)
Lemma iris_prediction_run (a b c e : pyval) (w : world) :
  iris_prediction a b c e w =
  match load_outcome w with
  | Raise f =>
      (Raise f,
       World (files w) (handles w) (log w ++ load_events w) (load_state w))
  | Ok (Plain _) =>
      (Raise (Failure AtPredictLookup (AttributeError "predict")),
       World (files w) (handles w)
         (log w ++ load_events w ++ [EvAssemble (batch a b c e)])
         (load_state w))
  | Ok (Estimator p) =>
      (fmap (fun z => PyDict [("predicted_class", PyInt z)])
            (label_of (fst (p (batch a b c e) (load_state w)))),
       World (files w) (handles w)
         (log w ++ load_events w
          ++ [EvAssemble (batch a b c e); EvPredict (batch a b c e)])
         (snd (p (batch a b c e) (load_state w))))
  end.
Proof.
  unfold iris_prediction, bind. rewrite load_model_run.
  destruct (load_outcome w) as [[p|v]|f]; [| |reflexivity].
  - unfold assemble, call_predict, call_library, emit.
    cbn [files handles log process fst snd]. fold (batch a b c e).
    rewrite <- !app_assoc. cbn [app].
    unfold label_of.
    destruct (fst (p (batch a b c e) (load_state w))) as [e1|predictions];
      [reflexivity|].
    destruct (py_getitem0 predictions) as [e2|first]; [reflexivity|].
    cbn [lift]. unfold ret, raise.
    destruct (py_int first) as [e3|z]; reflexivity.
  - unfold assemble, call_predict, raise, emit.
    cbn [files handles log process]. fold (batch a b c e).
    rewrite <- !app_assoc. reflexivity.
Qed.

Lemma lookup_mem (k : string) (d : list (string * pyval)) :
  mem k (keys d) = match lookup k d with Some _ => true | None => false end.
Proof.
  induction d as [|[k' v] r IH]; [reflexivity|].
  unfold mem, keys in *. simpl.
  destruct (String.eqb k k'); [reflexivity|]. exact IH.
Qed.

Lemma mem_In (k : string) (ks : list string) : mem k ks = true <-> In k ks.
Proof.
  unfold mem. rewrite existsb_exists. split.
  - intros [x [Hin Heq]]. apply String.eqb_eq in Heq. now subst.
  - intros Hin. exists k. split; [exact Hin|apply String.eqb_refl].
Qed.

Lemma missing_spec (d : list (string * pyval)) (k : string) :
  In k (filter (fun p => negb (mem p (keys d))) parameters)
  <-> In k parameters /\ ~ In k (keys d).
Proof.
  rewrite filter_In. split; intros [H1 H2]; (split; [exact H1|]).
  - intros Hin. apply mem_In in Hin. rewrite Hin in H2. discriminate.
  - apply negb_true_iff, not_true_is_false. intros Hm. apply H2, mem_In, Hm.
Qed.

Lemma missing_nonempty (d : list (string * pyval)) (k : string) :
  In k parameters -> lookup k d = None ->
  filter (fun p => negb (mem p (keys d))) parameters <> [].
Proof.
  intros Hin Hnone Hnil.
  assert (Hk : In k (filter (fun p => negb (mem p (keys d))) parameters)).
  { apply missing_spec. split; [exact Hin|].
    intros Hkeys. apply mem_In in Hkeys.
    rewrite lookup_mem, Hnone in Hkeys. discriminate. }
  rewrite Hnil in Hk. destruct Hk.
Qed.

Ltac missing_argument :=
  match goal with
  | H : lookup ?k ?d = None |- _ =>
      apply (missing_nonempty d k); [cbn; tauto|exact H]
  end.

(** Keyword binding decides on the key set alone: with exactly the four names
    the function is entered on the four values, otherwise a TypeError is
    raised at the call and the function is not entered. *)
Lemma call_with_kwargs_dict {A} (f : pyval -> pyval -> pyval -> pyval -> M A)
    (d : list (string * pyval)) :
  (exactly_four d = true /\
   exists a b c e,
     lookup "sepal_length" d = Some a /\ lookup "sepal_width" d = Some b /\
     lookup "petal_length" d = Some c /\ lookup "petal_width" d = Some e /\
     call_with_kwargs f (PyDict d) = f a b c e)
  \/
  (exactly_four d = false /\
   exists why,
     call_with_kwargs f (PyDict d) = raise AtBinding (TypeError why)
     /\ binding_error d why).
Proof.
  unfold call_with_kwargs, exactly_four.
  destruct (find (fun kv => negb (mem (fst kv) parameters)) d) as [[k v]|] eqn:Hfind.
  - right. apply find_some in Hfind. destruct Hfind as [Hin Hneg].
    cbn [fst] in Hneg. apply negb_true_iff in Hneg.
    assert (Hk : In k (keys d)) by exact (in_map fst _ _ Hin).
    split.
    + apply andb_false_iff. left.
      apply not_true_is_false. intros Hall.
      rewrite forallb_forall in Hall. specialize (Hall k Hk).
      cbv beta in Hall. congruence.
    + eexists. split; [reflexivity|]. split; [exact Hk|].
      intros Hp. apply mem_In in Hp. congruence.
  - assert (Hkeys : forall k, In k (keys d) -> In k parameters).
    { intros k Hk. unfold keys in Hk.
      apply in_map_iff in Hk. destruct Hk as [[k' v] [<- Hin]].
      pose proof (find_none _ _ Hfind _ Hin) as Hn. cbn [fst] in Hn.
      apply mem_In. now apply negb_false_iff in Hn. }
    assert (Hall : forallb (fun k => mem k parameters) (keys d) = true).
    { apply forallb_forall. intros k Hk. apply mem_In, Hkeys, Hk. }
    rewrite Hall. cbn [andb forallb parameters].
    rewrite !lookup_mem.
    destruct (lookup "sepal_length" d) as [a|] eqn:Ha;
      destruct (lookup "sepal_width" d) as [b|] eqn:Hb;
      destruct (lookup "petal_length" d) as [c|] eqn:Hc;
      destruct (lookup "petal_width" d) as [e|] eqn:He;
      try (right; split; [reflexivity|]; eexists; split; [reflexivity|];
           split; [exact Hkeys|]; split; [missing_argument|apply missing_spec]).
    left. split; [reflexivity|]. exists a, b, c, e. repeat split; reflexivity.
Qed.

Lemma exactly_four_iff (d : list (string * pyval)) :
  exactly_four d = true <-> (forall k, In k (keys d) <-> In k parameters).
Proof.
  unfold exactly_four. rewrite andb_true_iff, !forallb_forall. split.
  - intros [H1 H2] k. split; intros Hk; apply mem_In; auto.
  - intros H. split; intros k Hk; apply mem_In, H, Hk.
Qed.

(** [json.dumps] on the dictionary of the helper. *)
Lemma json_dumps_result (z : Z) :
  json_dumps (PyDict [("predicted_class", PyInt z)])
  = if too_long z then inl ValueError else inr (response_of z).
Proof.
  cbn [json_dumps]. unfold json_int.
  destruct (too_long z); reflexivity.
Qed.

Lemma dumps_label (z : Z) (w : world) :
  lift AtDumps (json_dumps (PyDict [("predicted_class", PyInt z)])) w
  = (response_to_label z, w).
Proof.
  rewrite json_dumps_result. unfold response_to_label.
  destruct (too_long z); reflexivity.
Qed.

Lemma too_long_spec (z : Z) : too_long z = false <-> Z.abs z < int_str_limit.
Proof.
  Transparent too_long. unfold too_long. Opaque too_long.
  apply Z.leb_gt.
Qed.

Lemma int_str_limit_above_ten : 10 <= int_str_limit.
Proof.
  Transparent int_str_limit. unfold int_str_limit. Opaque int_str_limit.
  change 10 with (10 ^ 1) at 1.
  apply Z.pow_le_mono_r; unfold int_max_str_digits; lia.
Qed.

Lemma too_long_below_ten (z : Z) : Z.abs z < 10 -> too_long z = false.
Proof.
  intros Hz. apply too_long_spec. pose proof int_str_limit_above_ten. lia.
Qed.



(** [predict] once the four values are bound. *)
Lemma predict_bound (req : request) (w : world) (d : list (string * pyval))
    (a b c e : pyval) :
  req_json req = inr (PyDict d) ->
  call_with_kwargs iris_prediction (PyDict d) = iris_prediction a b c e ->
  predict req w =
  bind (iris_prediction a b c e)
       (fun result => lift AtDumps (json_dumps result)) w.
Proof.
  intros Hj Hcall. unfold predict, get_json.
  rewrite Hj. cbn [lift]. unfold bind at 1. unfold ret at 1.
  unfold bind at 1. rewrite Hcall. reflexivity.
Qed.

(** [predict] on a request whose JSON binds the four parameters. *)
Lemma predict_run (req : request) (w : world) (d : list (string * pyval))
    (a b c e : pyval) :
  req_json req = inr (PyDict d) ->
  exactly_four d = true ->
  lookup "sepal_length" d = Some a -> lookup "sepal_width" d = Some b ->
  lookup "petal_length" d = Some c -> lookup "petal_width" d = Some e ->
  predict req w =
  match load_outcome w with
  | Raise f =>
      (Raise f,
       World (files w) (handles w) (log w ++ load_events w) (load_state w))
  | Ok (Plain _) =>
      (Raise (Failure AtPredictLookup (AttributeError "predict")),
       World (files w) (handles w)
         (log w ++ load_events w ++ [EvAssemble (batch a b c e)])
         (load_state w))
  | Ok (Estimator p) =>
      (response_to (fst (p (batch a b c e) (load_state w))),
       World (files w) (handles w)
         (log w ++ load_events w
          ++ [EvAssemble (batch a b c e); EvPredict (batch a b c e)])
         (snd (p (batch a b c e) (load_state w))))
  end.
Proof.
  intros Hjson Hfour Ha Hb Hc He.
  destruct (call_with_kwargs_dict iris_prediction d)
    as [[_ (a' & b' & c' & e' & Ha' & Hb' & Hc' & He' & Hcall)]|[Hno _]];
    [|congruence].
  assert (a' = a) by congruence. assert (b' = b) by congruence.
  assert (c' = c) by congruence. assert (e' = e) by congruence. subst.
  rewrite (predict_bound req w d a b c e Hjson Hcall).
  unfold bind. rewrite iris_prediction_run.
  destruct (load_outcome w) as [[p|v]|f]; try reflexivity.
  unfold response_to.
  destruct (label_of (fst (p (batch a b c e) (load_state w)))) as [z|f];
    [|reflexivity].
  cbn [fmap]. apply dumps_label.
Qed.

(** [predict] on a request whose JSON is an object with other keys. *)
Lemma predict_unbound (req : request) (d : list (string * pyval)) :
  req_json req = inr (PyDict d) ->
  exactly_four d = false ->
  exists why,
    binding_error d why
    /\ forall w, predict req w = (Raise (Failure AtBinding (TypeError why)), w).
Proof.
  intros Hjson Hfour.
  destruct (call_with_kwargs_dict iris_prediction d)
    as [[Hyes _]|[_ [why [Hcall Hwhy]]]]; [congruence|].
  exists why. split; [exact Hwhy|]. intros w.
  unfold predict, bind, get_json. rewrite Hjson. cbn [lift ret].
  rewrite Hcall. reflexivity.
Qed.

(** [predict] on a request that does not bind the four parameters: a
    MalformedRequest, the same in every world, and the world is left as it
    was. *)
Lemma predict_malformed (req : request) :
  binds req = false ->
  exists f,
    classify f = MalformedRequest
    /\ forall w, predict req w = (Raise f, w).
Proof.
  unfold binds. intros Hb.
  destruct (req_json req) as [ex|v] eqn:Hjson.
  - eexists. split; [|intros w; unfold predict, bind, get_json; rewrite Hjson;
                      reflexivity]. reflexivity.
  - destruct v as [ | | | | | |d];
      try (eexists; split;
           [|intros w; unfold predict, bind, get_json; rewrite Hjson;
             reflexivity]; reflexivity).
    destruct (predict_unbound req d Hjson Hb) as [why [_ Hrun]].
    eexists. split; [|exact Hrun]. reflexivity.
Qed.

Lemma exactly_four_lookups (d : list (string * pyval)) :
  exactly_four d = true ->
  exists a b c e,
    lookup "sepal_length" d = Some a /\ lookup "sepal_width" d = Some b /\
    lookup "petal_length" d = Some c /\ lookup "petal_width" d = Some e.
Proof.
  intros Hfour.
  destruct (call_with_kwargs_dict iris_prediction d)
    as [[_ (a & b & c & e & Ha & Hb & Hc & He & _)]|[Hno _]]; [|congruence].
  exists a, b, c, e. auto.
Qed.

Lemma binds_inv (req : request) :
  binds req = true ->
  exists d a b c e,
    req_json req = inr (PyDict d) /\ exactly_four d = true /\
    lookup "sepal_length" d = Some a /\ lookup "sepal_width" d = Some b /\
    lookup "petal_length" d = Some c /\ lookup "petal_width" d = Some e.
Proof.
  unfold binds. intros Hb.
  destruct (req_json req) as [ex|[ | | | | | |d]]; try discriminate.
  destruct (exactly_four_lookups d Hb) as (a & b & c & e & H).
  exists d, a, b, c, e. auto.
Qed.

(** The failures of [response_to] are those of the predictor and of the
    statements after it. *)
Lemma response_to_site (answer : exn + pyval) (f : failure) :
  response_to answer = Raise f ->
  at_site f = AtPredict \/ at_site f = AtSubscript
  \/ at_site f = AtInt \/ at_site f = AtDumps.
Proof.
  unfold response_to, label_of, response_to_label.
  destruct answer as [ex|predictions]; [intros [= <-]; auto|].
  destruct (py_getitem0 predictions) as [ex|first]; [intros [= <-]; auto|].
  destruct (py_int first) as [ex|z]; [intros [= <-]; auto|].
  destruct (too_long z); [intros [= <-]; auto|discriminate].
Qed.

Lemma response_to_ok (answer : exn + pyval) (body : string) :
  response_to answer = Ok body -> exists z, body = response_of z.
Proof.
  unfold response_to, response_to_label.
  destruct (label_of answer) as [z|f]; [|discriminate].
  destruct (too_long z); [discriminate|]. intros [= <-]. now exists z.
Qed.




(** The helper answers with the exception of the first statement that
    raises, or with the dictionary of the label. *)
Lemma iris_prediction_outcome (a b c e : pyval) (w : world) :
  helper_outcome w a b c e (fst (iris_prediction a b c e w)).
Proof.
  rewrite iris_prediction_run. unfold load_outcome, load_state.
  destruct (files w "model.pkl") as [| |content] eqn:Hfile; cbn [fst].
  - now apply ho_absent.
  - now apply ho_denied.
  - destruct (fst (joblib_load content (process w))) as [ex|[p|v]] eqn:Hload;
      cbn [fst].
    + now apply ho_corrupt with content.
    + unfold label_of.
      destruct (fst (p (batch a b c e) (snd (joblib_load content (process w)))))
        as [ex|predictions] eqn:Hp; cbn [fmap].
      * now apply ho_predict_raises with content p.
      * destruct (py_getitem0 predictions) as [ex|first] eqn:Hfirst; cbn [fmap].
        -- now apply ho_no_first with content p predictions.
        -- destruct (py_int first) as [ex|z] eqn:Hint; cbn [fmap].
           ++ now apply ho_not_int with content p predictions first.
           ++ now apply ho_label with content p predictions first.
    + now apply ho_no_predict with content v.
Qed.

Lemma with_open_releases {A} (path : string) (body : nat -> M A)
    (w w1 : world) (fd : nat) :
  open_rb path w = (Ok fd, w1) ->
  ~ In fd (map fst (handles (snd (with_open path body w)))).
Proof.
  intros Hopen. unfold with_open. rewrite Hopen.
  destruct (body fd w1) as [r w2]. cbn [snd close handles].
  intros Hin. apply in_map_iff in Hin. destruct Hin as [h [Hfd Hin]].
  apply filter_In in Hin. destruct Hin as [_ Hneq].
  rewrite Hfd, Nat.eqb_refl in Hneq. discriminate.
Qed.

Lemma lookup_In (d : list (string * pyval)) (k : string) (v : pyval) :
  NoDup (keys d) -> (lookup k d = Some v <-> In (k, v) d).
Proof.
  induction d as [|[k' v'] r IH]; intros Hnd.
  - split; [discriminate|intros []].
  - cbn in Hnd. inversion Hnd as [|? ? Hnotin Hnd']; subst.
    cbn [lookup]. destruct (String.eqb_spec k k') as [->|Hne].
    + split.
      * intros [= ->]. now left.
      * intros [[= ->]|Hin]; [reflexivity|].
        exfalso. apply Hnotin. exact (in_map fst _ _ Hin).
    + rewrite (IH Hnd'). split.
      * intros Hin. now right.
      * intros [[= -> _]|Hin]; [contradiction|exact Hin].
Qed.

Lemma find_first_unknown (pre post : list (string * pyval)) (k : string)
    (v : pyval) :
  (forall k', In k' (keys pre) -> In k' parameters) ->
  ~ In k parameters ->
  find (fun kv => negb (mem (fst kv) parameters)) (pre ++ (k, v) :: post)
  = Some (k, v).
Proof.
  intros Hpre Hk. induction pre as [|[k' v'] r IH].
  - cbn [app find fst].
    assert (Hm : mem k parameters = false).
    { apply not_true_is_false. intros Hm. apply Hk, mem_In, Hm. }
    rewrite Hm. reflexivity.
  - cbn [app find fst].
    assert (Hm : mem k' parameters = true).
    { apply mem_In, Hpre. now left. }
    rewrite Hm. cbn [negb]. apply IH.
    intros k'' Hin. apply Hpre. now right.
Qed.




(** ** The claims *)


(** C2.  A request to the predict endpoint whose JSON object omits one of
    the four fields, or has a field beyond the four, fails where the
    arguments are bound, a MalformedRequest; the helper is not entered, so
    the world is as it was and nothing is predicted. *)
Theorem predict_rejects_missing_or_extra
    (req : request) (w : world) (d : list (string * pyval)) :
  req_json req = inr (PyDict d) ->
  (exists k, In k parameters /\ ~ In k (keys d))
  \/ (exists k, In k (keys d) /\ ~ In k parameters) ->
  exists f,
    predict req w = (Raise f, w)
    /\ at_site f = AtBinding
    /\ classify f = MalformedRequest.
Proof.
  intros Hjson Hkeys.
  assert (Hfour : exactly_four d = false).
  { unfold exactly_four. apply andb_false_iff.
    destruct Hkeys as [[k [Hin Hout]]|[k [Hin Hout]]].
    - right. apply not_true_is_false. intros Hall.
      rewrite forallb_forall in Hall. apply Hout, mem_In, Hall, Hin.
    - left. apply not_true_is_false. intros Hall.
      rewrite forallb_forall in Hall. apply Hout, mem_In, Hall, Hin. }
  destruct (predict_unbound req d Hjson Hfour) as [why [_ Hrun]].
  eexists. split; [apply Hrun|]. split; reflexivity.
Qed.

(** C3, amended.  A request to the predict endpoint is accepted (does not
    fail with a MalformedRequest) exactly when its body is a JSON object whose
    field names are the four names, all present and no other.  The values
    are neither checked nor coerced: with the four names and any values,
    coercible to floats or not, the request is accepted, and when the
    artifact loads as an estimator it is processed as a prediction, the
    values passed to the predictor as they are and the response decided by
    its answer. *)
Theorem accepted_iff_four_names (req : request) (w : world) :
  (accepted req w <->
   exists d, req_json req = inr (PyDict d)
             /\ forall k, In k (keys d) <-> In k parameters)
  /\ (forall d a b c e content p,
        req_json req = inr (PyDict d) ->
        exactly_four d = true ->
        lookup "sepal_length" d = Some a -> lookup "sepal_width" d = Some b ->
        lookup "petal_length" d = Some c -> lookup "petal_width" d = Some e ->
        files w "model.pkl" = Regular content ->
        fst (joblib_load content (process w)) = inr (Estimator p) ->
        accepted req w
        /\ In (EvPredict (PyList [PyList [a; b; c; e]]))
              (log (snd (predict req w)))
        /\ fst (predict req w)
           = response_to
               (fst (p (PyList [PyList [a; b; c; e]])
                       (snd (joblib_load content (process w)))))).
Proof.
  assert (Hacc : forall d, req_json req = inr (PyDict d) ->
                           exactly_four d = true -> accepted req w).
  { intros d Hj Hkeys f Hf.
    destruct (exactly_four_lookups d Hkeys) as (a & b & c & e & Ha & Hb & Hc & He).
    rewrite (predict_run req w d a b c e Hj Hkeys Ha Hb Hc He) in Hf.
    unfold load_outcome in Hf.
    destruct (files w "model.pkl") as [| |content]; cbn [fst] in Hf.
    - injection Hf as <-. discriminate.
    - injection Hf as <-. discriminate.
    - destruct (fst (joblib_load content (process w))) as [ex|[p|v]];
        cbn [fst] in Hf.
      + injection Hf as <-. discriminate.
      + destruct (response_to_site _ _ Hf) as [H|[H|[H|H]]];
          unfold classify; rewrite H; discriminate.
      + injection Hf as <-. discriminate. }
  split; [split|].
  - intros Ha. destruct (binds req) eqn:Hb.
    + destruct (binds_inv req Hb) as (d & _ & _ & _ & _ & Hj & Hf & _).
      exists d. split; [exact Hj|]. now apply exactly_four_iff.
    + destruct (predict_malformed req Hb) as [f [Hkind Hrun]].
      exfalso. apply (Ha f); [rewrite Hrun; reflexivity|exact Hkind].
  - intros [d [Hj Hkeys]]. apply (Hacc d Hj). now apply exactly_four_iff.
  - intros d a b c e content p Hj Hf Ha Hb Hc He Hfile Hload.
    split; [now apply (Hacc d)|].
    rewrite (predict_run req w d a b c e Hj Hf Ha Hb Hc He).
    unfold load_outcome, load_state. rewrite Hfile, Hload.
    cbn [fst snd log]. split; [|reflexivity].
    apply in_or_app. right. apply in_or_app. right. right. now left.
Qed.


(** C5, amended.  While the artifact is missing, unreadable or does not
    deserialise, every request to the predict endpoint fails: one that binds
    the four parameters with the exception of the load itself, an
    ArtifactUnavailable, after a single attempt on the file; any other with a
    MalformedRequest, the file not having been touched.  The index endpoint
    answers as ever. *)
Theorem predict_fails_without_artifact (req : request) (w : world) :
  artifact_unavailable w ->
  (exists f,
     fst (predict req w) = Raise f
     /\ (binds req = true ->
         load_outcome w = Raise f
         /\ classify f = ArtifactUnavailable
         /\ log (snd (predict req w)) = (log w ++ load_events w)%list
         /\ (List.length (load_events w) = 1%nat
             \/ exists fd, load_events w
                           = [EvOpen "model.pkl" "rb" fd; EvRead fd; EvClose fd]))
     /\ (binds req = false ->
         classify f = MalformedRequest /\ snd (predict req w) = w))
  /\ index w = (Ok "Hello, world!", w).
Proof.
  intros Hun. split; [|reflexivity].
  destruct (binds req) eqn:Hb.
  - destruct (binds_inv req Hb) as (d & a & b & c & e & Hj & Hf & Ha & Hb' & Hc & He).
    rewrite (predict_run req w d a b c e Hj Hf Ha Hb' Hc He).
    unfold artifact_unavailable in Hun. unfold load_outcome, load_events.
    destruct (files w "model.pkl") as [| |content].
    + eexists. split; [reflexivity|]. split; [|discriminate].
      intros _. repeat split. now left.
    + eexists. split; [reflexivity|]. split; [|discriminate].
      intros _. repeat split. now left.
    + destruct Hun as [ex Hex]. rewrite Hex.
      eexists. split; [reflexivity|]. split; [|discriminate].
      intros _. repeat split. right. eexists. reflexivity.
  - destruct (predict_malformed req Hb) as [f [Hkind Hrun]].
    exists f. rewrite Hrun. split; [reflexivity|].
    split; [discriminate|]. intros _. split; [exact Hkind|reflexivity].
Qed.


(** C7.  A GET request for "/" is routed to the index view, which answers
    the fixed text and changes nothing, whatever the body of the request and
    whatever the world; the view has no failing outcome. *)
Theorem index_always_succeeds (req : request) (w : world) :
  req_method req = GET ->
  req_path req = "/" ->
  dispatch req = Some index
  /\ index w = (Ok "Hello, world!", w).
Proof.
  intros Hm Hp. unfold dispatch. rewrite Hm, Hp. split; reflexivity.
Qed.

(** C8.  A request to the predict endpoint either succeeds, with the JSON
    text of one labelled result, or fails; it fails with the exception of the
    first statement that raises, unchanged, [json.dumps] on the last line
    included, and it succeeds only when no statement raised. *)
Theorem predict_atomic (req : request) (w : world) :
  predict_outcome req w (fst (predict req w))
  /\ ((exists z, fst (predict req w) = Ok (response_of z))
      \/ (exists f, fst (predict req w) = Raise f)).
Proof.
  assert (Hout : predict_outcome req w (fst (predict req w))).
  { destruct (req_json req) as [ex|v] eqn:Hj.
    - unfold predict, bind, get_json. rewrite Hj. now apply po_get_json.
    - destruct v as [ | | | | | |d];
        try (unfold predict, bind, get_json; rewrite Hj;
             apply po_not_mapping with (1 := Hj); discriminate).
      destruct (call_with_kwargs_dict iris_prediction d)
        as [[Hf (a & b & c & e & Ha & Hb & Hc & He & Hcall)]
           |[_ [why [Hcall Hwhy]]]].
      + rewrite (predict_bound req w d a b c e Hj Hcall). unfold bind.
        pose proof (iris_prediction_outcome a b c e w) as Hh.
        pose proof (proj1 (exactly_four_iff d) Hf) as Hkeys.
        destruct (iris_prediction a b c e w) as [[r|f] w1]; cbn [fst] in Hh.
        * destruct (json_dumps r) as [ex|body] eqn:Hd; cbn [lift fst raise ret].
          -- now apply po_dumps_raises with d a b c e r.
          -- now apply po_response with d a b c e r.
        * now apply po_helper_raises with d a b c e.
      + unfold predict, bind, get_json. rewrite Hj. cbn [lift ret].
        rewrite Hcall. cbn [raise fst].
        destruct why as [|k|ks| |]; cbn in Hwhy; try contradiction.
        * destruct Hwhy as [Hin Hnot]. now apply po_unexpected with d.
        * destruct Hwhy as [Hkeys [Hne Hks]]. now apply po_missing with d. }
  split; [exact Hout|].
  destruct (fst (predict req w)) as [body|f]; [left|right; now exists f].
  inversion Hout as [| | | | | |d a b c e r body' Hj Hkeys Ha Hb Hc He Hr Hd Heq].
  inversion Hr; subst. rewrite json_dumps_result in Hd.
  destruct (too_long z); [discriminate|]. injection Hd as <-. now exists z.
Qed.

(** C9.  Every call of the load goes to the file: it opens "model.pkl" in
    binary mode and, when that succeeds, reads and deserialises what the file
    holds now, so that a file replaced between two calls is answered from its
    new content; and the descriptor it opens is closed on every way out,
    whatever the body of the [with] does, leaving the open handles as they
    were.  Nothing of a load is kept for the next but what the deserialiser
    itself left in the state of the process. *)
Theorem load_model_fresh_and_released (w : world) :
  fst (load_model w) = load_outcome w
  /\ log (snd (load_model w)) = (log w ++ load_events w)%list
  /\ load_events w <> []
  /\ (forall path mode fd,
        In (EvOpen path mode fd) (load_events w) ->
        In (EvClose fd) (load_events w))
  /\ handles (snd (load_model w)) = handles w
  /\ files (snd (load_model w)) = files w
  /\ (forall A (body : nat -> M A) fd w1,
        open_rb "model.pkl" w = (Ok fd, w1) ->
        ~ In fd (map fst (handles (snd (with_open "model.pkl" body w)))))
  /\ (forall f',
        fst (load_model (replace_file "model.pkl" f' (snd (load_model w))))
        = load_outcome
            (replace_file "model.pkl" f'
               (with_process_of (snd (load_model w)) w)))
  /\ ((forall content st st',
         fst (joblib_load content st) = fst (joblib_load content st')) ->
      forall f',
        fst (load_model (replace_file "model.pkl" f' (snd (load_model w))))
        = load_outcome (replace_file "model.pkl" f' w)).
Proof.
  rewrite !load_model_run. cbn [fst snd log handles files].
  repeat split.
  - unfold load_events. destruct (files w "model.pkl"); discriminate.
  - unfold load_events. intros path mode fd.
    destruct (files w "model.pkl"); cbn; intros [H|H];
      try discriminate; try contradiction.
    + injection H as _ _ <-. auto.
    + destruct H as [H|[H|H]]; try discriminate; contradiction.
  - intros A body fd w1. apply with_open_releases.
  - intros f'. rewrite load_model_run. reflexivity.
  - intros Hblind f'. rewrite load_model_run. cbn [fst].
    unfold load_outcome, replace_file. cbn [files process].
    destruct (if ("model.pkl" =? "model.pkl")%string then f' else files w "model.pkl")
      as [| |content]; try reflexivity.
    rewrite (Hblind content (load_state w) (process w)). reflexivity.
Qed.

(** C10.  The predict handler neither coerces nor checks the four values: on
    a JSON object with exactly the four names it enters the helper on the
    bound values, whatever they are, and never fails at the binding; when the
    artifact loads as an estimator, the predictor is invoked on the one row
    of those very values, and the response is decided by its answer alone. *)
Theorem predict_forwards_values
    (req : request) (w : world) (d : list (string * pyval)) :
  req_json req = inr (PyDict d) ->
  exactly_four d = true ->
  exists a b c e,
    lookup "sepal_length" d = Some a /\ lookup "sepal_width" d = Some b /\
    lookup "petal_length" d = Some c /\ lookup "petal_width" d = Some e /\
    predict req w
    = bind (iris_prediction a b c e)
           (fun result => lift AtDumps (json_dumps result)) w
    /\ (forall f, fst (predict req w) = Raise f ->
                  at_site f <> AtGetJson /\ at_site f <> AtBinding)
    /\ (forall content p,
          files w "model.pkl" = Regular content ->
          fst (joblib_load content (process w)) = inr (Estimator p) ->
          In (EvPredict (PyList [PyList [a; b; c; e]])) (log (snd (predict req w)))
          /\ fst (predict req w)
             = response_to
                 (fst (p (PyList [PyList [a; b; c; e]])
                         (snd (joblib_load content (process w)))))).
Proof.
  intros Hj Hf.
  destruct (call_with_kwargs_dict iris_prediction d)
    as [[_ (a & b & c & e & Ha & Hb & Hc & He & Hcall)]|[Hno _]]; [|congruence].
  exists a, b, c, e. repeat (split; [assumption|]).
  split; [now apply predict_bound with d|].
  rewrite (predict_run req w d a b c e Hj Hf Ha Hb Hc He).
  split.
  - intros f Hfail. unfold load_outcome in Hfail.
    destruct (files w "model.pkl") as [| |content]; cbn [fst] in Hfail;
      try (injection Hfail as <-; split; discriminate).
    destruct (fst (joblib_load content (process w))) as [ex|[p|v]];
      cbn [fst] in Hfail;
      try (injection Hfail as <-; split; discriminate).
    destruct (response_to_site _ _ Hfail) as [H|[H|[H|H]]];
      rewrite H; split; discriminate.
  - intros content p Hfile Hload.
    unfold load_outcome, load_state. rewrite Hfile, Hload.
    cbn [fst snd log]. split; [|reflexivity].
    apply in_or_app. right. apply in_or_app. right. right. now left.
Qed.

(** ** Further properties of the views *)

(** X1.  Fields are bound by name: two bodies with the same four fields in a
    different order are served alike, response and effects. *)
Theorem predict_field_order_irrelevant
    (req req' : request) (w : world) (d d' : list (string * pyval)) :
  req_json req = inr (PyDict d) ->
  req_json req' = inr (PyDict d') ->
  exactly_four d = true ->
  NoDup (keys d) ->
  Permutation d d' ->
  predict req' w = predict req w.
Proof.
  intros Hj Hj' Hf Hnd Hperm.
  assert (Hnd' : NoDup (keys d')).
  { apply (Permutation_NoDup (l := keys d)); [|exact Hnd].
    unfold keys. now apply Permutation_map. }
  assert (Hf' : exactly_four d' = true).
  { apply exactly_four_iff. intros k.
    rewrite <- (proj1 (exactly_four_iff d) Hf k). unfold keys.
    split; apply Permutation_in; [symmetry|]; now apply Permutation_map. }
  destruct (exactly_four_lookups d Hf) as (a & b & c & e & Ha & Hb & Hc & He).
  assert (Hmove : forall k v, lookup k d = Some v -> lookup k d' = Some v).
  { intros k v Hl. apply (lookup_In d' k v Hnd').
    apply (Permutation_in _ Hperm). now apply (lookup_In d k v Hnd). }
  rewrite (predict_run req w d a b c e Hj Hf Ha Hb Hc He).
  rewrite (predict_run req' w d' a b c e Hj' Hf'
             (Hmove _ _ Ha) (Hmove _ _ Hb) (Hmove _ _ Hc) (Hmove _ _ He)).
  reflexivity.
Qed.

(** X2.  A body with a field that names no parameter is refused for that
    field, the first such in the order of the body, whether or not required
    fields are missing as well and whatever the state of the artifact. *)
Theorem predict_names_first_unknown_field
    (req : request) (w : world) (pre post : list (string * pyval))
    (k : string) (v : pyval) :
  req_json req = inr (PyDict (pre ++ (k, v) :: post)) ->
  (forall k', In k' (keys pre) -> In k' parameters) ->
  ~ In k parameters ->
  predict req w
  = (Raise (Failure AtBinding (TypeError (UnexpectedKeyword k))), w).
Proof.
  intros Hj Hpre Hk. unfold predict, bind, get_json. rewrite Hj.
  cbn [lift ret]. unfold call_with_kwargs.
  rewrite (find_first_unknown pre post k v Hpre Hk). reflexivity.
Qed.

(** X3.  A body that parses to anything but an object (null, a boolean, a
    number, a string, an array) is refused at the call, as not a mapping,
    before the model file is touched. *)
Theorem predict_rejects_non_object (req : request) (w : world) (v : pyval) :
  req_json req = inr v ->
  (forall d, v <> PyDict d) ->
  predict req w = (Raise (Failure AtBinding (TypeError NotAMapping)), w).
Proof.
  intros Hj Hv. unfold predict, bind, get_json. rewrite Hj.
  destruct v as [ | | | | | |d]; try reflexivity.
  exfalso. now apply (Hv d).
Qed.

(** X4.  When the pickle deserialises to something that has no [predict],
    a well-formed request fails with an AttributeError, neither of the two
    error kinds of the specification; the file has been opened, read and
    closed and the row built by then, and no predictor has been called. *)
Theorem predict_needs_estimator
    (req : request) (w : world) (content : list byte) (v : pyval) :
  binds req = true ->
  files w "model.pkl" = Regular content ->
  fst (joblib_load content (process w)) = inr (Plain v) ->
  (exists d a b c e,
     req_json req = inr (PyDict d) /\
     lookup "sepal_length" d = Some a /\ lookup "sepal_width" d = Some b /\
     lookup "petal_length" d = Some c /\ lookup "petal_width" d = Some e /\
     predict req w
     = (Raise (Failure AtPredictLookup (AttributeError "predict")),
        World (files w) (handles w)
          (log w ++ [EvOpen "model.pkl" "rb" (fresh_fd (handles w));
                     EvRead (fresh_fd (handles w));
                     EvClose (fresh_fd (handles w));
                     EvAssemble (PyList [PyList [a; b; c; e]])])
          (snd (joblib_load content (process w)))))
  /\ classify (Failure AtPredictLookup (AttributeError "predict")) = OtherFailure.
Proof.
  intros Hb Hfile Hload. split; [|reflexivity].
  destruct (binds_inv req Hb) as (d & a & b & c & e & Hj & Hf & Ha & Hb' & Hc & He).
  exists d, a, b, c, e. repeat (split; [assumption|]).
  rewrite (predict_run req w d a b c e Hj Hf Ha Hb' Hc He).
  unfold load_outcome, load_events, load_state. rewrite Hfile, Hload.
  reflexivity.
Qed.

(** X5.  A request to the predict endpoint only adds to the record of
    effects: at most one attempt to open the file and at most one call of the
    predictor, none at all for a request that does not bind the four
    parameters; and every descriptor it opens it closes. *)
Theorem predict_effects_bounded (req : request) (w : world) :
  exists evs,
    log (snd (predict req w)) = (log w ++ evs)%list
    /\ (List.length (filter is_open_attempt evs) <= 1)%nat
    /\ (List.length (filter is_predict_call evs) <= 1)%nat
    /\ (binds req = false -> evs = [])
    /\ (forall path mode fd,
          In (EvOpen path mode fd) evs -> In (EvClose fd) evs).
Proof.
  destruct (binds req) eqn:Hb.
  - destruct (binds_inv req Hb) as (d & a & b & c & e & Hj & Hf & Ha & Hb' & Hc & He).
    rewrite (predict_run req w d a b c e Hj Hf Ha Hb' Hc He).
    assert (Hload : (List.length (filter is_open_attempt (load_events w)) <= 1)%nat
                    /\ filter is_predict_call (load_events w) = []
                    /\ forall path mode fd,
                         In (EvOpen path mode fd) (load_events w) ->
                         In (EvClose fd) (load_events w)).
    { unfold load_events. destruct (files w "model.pkl"); cbn.
      - repeat split; auto. intros ? ? ? [H|[]]. discriminate H.
      - repeat split; auto. intros ? ? ? [H|[]]. discriminate H.
      - repeat split; auto. intros ? ? ? [H|[H|[H|[]]]]; try discriminate H.
        injection H as _ _ <-. auto. }
    destruct Hload as (Hopen & Hcall & Hclose).
    destruct (load_outcome w) as [[p|v]|f].
    + exists (load_events w
              ++ [EvAssemble (batch a b c e); EvPredict (batch a b c e)])%list.
      cbn [snd log].
      rewrite !filter_app, !length_app, Hcall. cbn.
      repeat split; try lia; try discriminate.
      intros path mode fd Hin. apply in_app_or in Hin. apply in_or_app.
      destruct Hin as [Hin|[Hin|[Hin|[]]]];
        [left; eauto|discriminate Hin|discriminate Hin].
    + exists (load_events w ++ [EvAssemble (batch a b c e)])%list.
      cbn [snd log].
      rewrite !filter_app, !length_app, Hcall. cbn.
      repeat split; try lia; try discriminate.
      intros path mode fd Hin. apply in_app_or in Hin. apply in_or_app.
      destruct Hin as [Hin|[Hin|[]]]; [left; eauto|discriminate Hin].
    + exists (load_events w). cbn [snd log]. rewrite Hcall. cbn.
      repeat split; try lia; try discriminate; auto.
  - destruct (predict_malformed req Hb) as [f [_ Hrun]]. rewrite Hrun.
    exists []. cbn. rewrite app_nil_r. repeat split; auto.
Qed.

(** X6.  Only a POST to "/predict" reaches the model.  Any other request
    the routes accept is answered with the world left as it was: a GET or a
    HEAD for "/" by the index view, with its fixed text, and an OPTIONS for
    either path by Flask itself, with an empty body. *)
Theorem dispatch_elsewhere_leaves_model
    (req : request) (view : M string) (w : world) :
  dispatch req = Some view ->
  req_method req <> POST \/ req_path req <> "/predict" ->
  view w
  = (Ok (if method_eqb (req_method req) OPTIONS then "" else "Hello, world!"),
     w).
Proof.
  unfold dispatch, url_map, rule_methods. cbn [find existsb method_eqb app orb].
  destruct (String.eqb_spec (req_path req) "/") as [Hroot|_].
  - rewrite Hroot.
    destruct (req_method req); cbn; intros Hv _; try discriminate Hv;
      injection Hv as <-; reflexivity.
  - cbn [andb].
    destruct (String.eqb_spec (req_path req) "/predict") as [Hp|_];
      [|cbn; discriminate].
    destruct (req_method req) eqn:Hm; cbn; intros Hv Hnot;
      try discriminate Hv.
    + injection Hv as <-. reflexivity.
    + destruct Hnot as [Hnot|Hnot]; now elim Hnot.
Qed.


(** X8.  A model file replaced between two requests is in force for the
    second: when the new file loads as an estimator, the second request is
    answered from what that estimator returns, through the same steps. *)
Theorem predict_sees_replaced_artifact
    (req : request) (w : world) (d : list (string * pyval)) (a b c e : pyval)
    (content' : list byte) (p' : pyval -> pstate -> (exn + pyval) * pstate) :
  req_json req = inr (PyDict d) ->
  exactly_four d = true ->
  lookup "sepal_length" d = Some a -> lookup "sepal_width" d = Some b ->
  lookup "petal_length" d = Some c -> lookup "petal_width" d = Some e ->
  fst (joblib_load content' (process (snd (predict req w))))
  = inr (Estimator p') ->
  fst (predict req
         (replace_file "model.pkl" (Regular content') (snd (predict req w))))
  = response_to
      (fst (p' (batch a b c e)
              (snd (joblib_load content' (process (snd (predict req w))))))).
Proof.
  intros Hj Hf Ha Hb Hc He Hload.
  rewrite (predict_run req (replace_file _ _ _) d a b c e Hj Hf Ha Hb Hc He).
  unfold load_outcome, load_state. cbn [replace_file files process].
  rewrite String.eqb_refl, Hload. reflexivity.
Qed.

End Libraries.

Opaque too_long int_str_limit.

(** ** The claims at sample inputs *)

(** The scenario of the specification: 5.1, 3.5, 1.4, 0.2 against the tree
    gives class 0. *)
Example predict_setosa :
  fst (predict sample_repr sample_load (post_predict setosa) (disk (Regular [x00])))
  = Ok (response_of 0).
Proof. reflexivity. Qed.



Lemma predict_rejects_missing_or_extra_witness :
  exists f,
    predict sample_repr sample_load (post_predict no_petal_width) (disk (Regular [x00]))
    = (Raise f, disk (Regular [x00]))
    /\ at_site f = AtBinding
    /\ classify f = MalformedRequest.
Proof.
  apply (predict_rejects_missing_or_extra sample_repr sample_load
           (post_predict no_petal_width) (disk (Regular [x00])) no_petal_width).
  - reflexivity.
  - left. exists "petal_width". split.
    + simpl. tauto.
    + simpl. intros [H|[H|[H|H]]]; try discriminate H. exact H.
Defined.

(** An unknown field is refused as well, and named. *)
Example predict_extra_field :
  fst (predict sample_repr sample_load
         (post_predict (setosa ++ [("species", PyStr "setosa")]))
         (disk (Regular [x00])))
  = Raise (Failure AtBinding (TypeError (UnexpectedKeyword "species"))).
Proof. reflexivity. Qed.

(** C3, as stated, fails: with null for the sepal length the request is
    accepted, and against a classifier that does not look at the features it
    is answered with a prediction. *)
Lemma coercion_claim_fails :
  ~ accepted_values_coercible sample_repr sample_load
      (post_predict null_sepal_length) (disk (Regular [x01]))
  /\ ~ uncoercible_value_fails sample_repr sample_load
        (post_predict null_sepal_length) (disk (Regular [x01]))
  /\ float_coercible PyNone = false
  /\ fst (predict sample_repr sample_load
            (post_predict null_sepal_length) (disk (Regular [x01])))
     = Ok (response_of 0).
Proof.
  assert (Hrun : fst (predict sample_repr sample_load
                        (post_predict null_sepal_length) (disk (Regular [x01])))
                 = Ok (response_of 0))
    by reflexivity.
  split; [|split; [|split; [reflexivity|exact Hrun]]].
  - intros Hclaim.
    destruct Hclaim as (d & a & b & c & e & Hj & Ha & _ & _ & _ & Hco).
    + intros f Hf. rewrite Hrun in Hf. discriminate Hf.
    + injection Hj as <-. injection Ha as <-. discriminate Hco.
  - intros Hclaim.
    destruct (Hclaim null_sepal_length PyNone
                (PyFloat 0x400C000000000000) (PyFloat 0x3FF6666666666666)
                (PyFloat 0x3FC999999999999A)
                eq_refl eq_refl eq_refl eq_refl eq_refl eq_refl eq_refl)
      as [f Hf].
    rewrite Hrun in Hf. discriminate Hf.
Qed.

Lemma accepted_iff_four_names_witness :
  accepted sample_repr sample_load
    (post_predict null_sepal_length) (disk (Regular [x01]))
  /\ In (EvPredict
           (PyList [PyList [PyNone; PyFloat 0x400C000000000000;
                            PyFloat 0x3FF6666666666666;
                            PyFloat 0x3FC999999999999A]]))
        (log (snd (predict sample_repr sample_load
                     (post_predict null_sepal_length) (disk (Regular [x01])))))
  /\ fst (predict sample_repr sample_load
            (post_predict null_sepal_length) (disk (Regular [x01])))
     = response_to
         (fst (stateless constant_predict
                 (PyList [PyList [PyNone; PyFloat 0x400C000000000000;
                                  PyFloat 0x3FF6666666666666;
                                  PyFloat 0x3FC999999999999A]])
                 (snd (sample_load [x01] (process (disk (Regular [x01]))))))).
Proof.
  apply (proj2 (accepted_iff_four_names sample_repr sample_load
                  (post_predict null_sepal_length) (disk (Regular [x01])))
           null_sepal_length PyNone
           (PyFloat 0x400C000000000000) (PyFloat 0x3FF6666666666666)
           (PyFloat 0x3FC999999999999A) [x01] (stateless constant_predict));
    reflexivity.
Defined.



(** C5, as stated, fails: with the artifact missing, a request with no
    fields fails where its arguments are bound, a MalformedRequest and not an
    ArtifactUnavailable, and the file is never tried. *)
Lemma artifact_claim_fails :
  artifact_unavailable sample_load (disk Absent)
  /\ predict sample_repr sample_load (post_predict []) (disk Absent)
     = (Raise (Failure AtBinding (TypeError (MissingArguments parameters))),
        disk Absent)
  /\ classify (Failure AtBinding (TypeError (MissingArguments parameters)))
     = MalformedRequest
  /\ ~ (exists f,
          fst (predict sample_repr sample_load (post_predict []) (disk Absent))
          = Raise f
          /\ classify f = ArtifactUnavailable).
Proof.
  split; [exact I|]. split; [reflexivity|]. split; [reflexivity|].
  intros [f [Hf Hkind]]. injection Hf as <-. discriminate Hkind.
Qed.

Lemma predict_fails_without_artifact_witness :
  (exists f,
     fst (predict sample_repr sample_load (post_predict setosa) (disk Absent))
     = Raise f
     /\ (binds (post_predict setosa) = true ->
         load_outcome sample_load (disk Absent) = Raise f
         /\ classify f = ArtifactUnavailable
         /\ log (snd (predict sample_repr sample_load (post_predict setosa)
                        (disk Absent)))
            = (log (disk Absent) ++ load_events (disk Absent))%list
         /\ (List.length (load_events (disk Absent)) = 1%nat
             \/ exists fd, load_events (disk Absent)
                           = [EvOpen "model.pkl" "rb" fd; EvRead fd; EvClose fd]))
     /\ (binds (post_predict setosa) = false ->
         classify f = MalformedRequest
         /\ snd (predict sample_repr sample_load (post_predict setosa)
                   (disk Absent))
            = disk Absent))
  /\ index (disk Absent) = (Ok "Hello, world!", disk Absent).
Proof.
  apply (predict_fails_without_artifact sample_repr sample_load
           (post_predict setosa) (disk Absent)).
  exact I.
Defined.

(** A pickle that does not deserialise, and a file that cannot be read. *)
Example predict_corrupt_artifact :
  fst (predict sample_repr sample_load (post_predict setosa) (disk (Regular [xff])))
  = Raise (Failure AtLoad (LibraryError "UnpicklingError")).
Proof. reflexivity. Qed.

Example predict_unreadable_artifact :
  predict sample_repr sample_load (post_predict setosa) (disk Denied)
  = (Raise (Failure AtOpen PermissionError),
     emit (EvOpenFailed "model.pkl" "rb" PermissionError) (disk Denied)).
Proof. reflexivity. Qed.



Lemma index_always_succeeds_witness :
  dispatch sample_repr sample_load get_index = Some index
  /\ index (disk Absent) = (Ok "Hello, world!", disk Absent).
Proof.
  apply (index_always_succeeds sample_repr sample_load get_index (disk Absent));
    reflexivity.
Defined.

(** The label is taken from the first element and coerced: a float label, a
    string label, and labels that do not coerce. *)
Example label_of_float :
  label_of (inr (PyList [PyFloat 0x4000000000000000])) = Ok 2.
Proof. reflexivity. Qed.

Example label_of_digits : label_of (inr (PyList [PyStr "1"; PyStr "2"])) = Ok 1.
Proof. reflexivity. Qed.

Example label_of_name :
  label_of (inr (PyList [PyStr "setosa"])) = Raise (Failure AtInt ValueError).
Proof. reflexivity. Qed.

Example label_of_empty :
  label_of (inr (PyList [])) = Raise (Failure AtSubscript IndexError).
Proof. reflexivity. Qed.

(** The blanks [int()] strips: a no-break space and a tab go, a file
    separator (character 28) does not. *)
Example int_of_str_blanks :
  int_of_str (String "160" (String "009" "12 ")) = Some 12
  /\ int_of_str (String "028" "5") = None.
Proof. split; reflexivity. Qed.

Lemma predict_forwards_values_witness :
  exists a b c e,
    lookup "sepal_length" null_sepal_length = Some a /\
    lookup "sepal_width" null_sepal_length = Some b /\
    lookup "petal_length" null_sepal_length = Some c /\
    lookup "petal_width" null_sepal_length = Some e /\
    predict sample_repr sample_load (post_predict null_sepal_length)
      (disk (Regular [x00]))
    = bind (iris_prediction sample_load a b c e)
           (fun result => lift AtDumps (json_dumps sample_repr result))
           (disk (Regular [x00]))
    /\ (forall f,
          fst (predict sample_repr sample_load (post_predict null_sepal_length)
                 (disk (Regular [x00]))) = Raise f ->
          at_site f <> AtGetJson /\ at_site f <> AtBinding)
    /\ (forall content p,
          files (disk (Regular [x00])) "model.pkl" = Regular content ->
          fst (sample_load content (process (disk (Regular [x00]))))
          = inr (Estimator p) ->
          In (EvPredict (PyList [PyList [a; b; c; e]]))
             (log (snd (predict sample_repr sample_load
                          (post_predict null_sepal_length)
                          (disk (Regular [x00])))))
          /\ fst (predict sample_repr sample_load
                    (post_predict null_sepal_length) (disk (Regular [x00])))
             = response_to
                 (fst (p (PyList [PyList [a; b; c; e]])
                         (snd (sample_load content
                                 (process (disk (Regular [x00])))))))).
Proof.
  apply (predict_forwards_values sample_repr sample_load
           (post_predict null_sepal_length) (disk (Regular [x00]))
           null_sepal_length); reflexivity.
Defined.

(** The null reaches the tree, and the failure is the tree's. *)
Example predict_null_reaches_predictor :
  fst (predict sample_repr sample_load (post_predict null_sepal_length)
         (disk (Regular [x00])))
  = Raise (Failure AtPredict ValueError).
Proof. reflexivity. Qed.

(** ** The further properties at sample inputs *)

Lemma predict_field_order_irrelevant_witness :
  predict sample_repr sample_load (post_predict (rev setosa)) (disk (Regular [x00]))
  = predict sample_repr sample_load (post_predict setosa) (disk (Regular [x00])).
Proof.
  apply (predict_field_order_irrelevant sample_repr sample_load
           (post_predict setosa) (post_predict (rev setosa))
           (disk (Regular [x00])) setosa (rev setosa)).
  - reflexivity.
  - reflexivity.
  - reflexivity.
  - simpl. repeat constructor; simpl; intuition discriminate.
  - apply Permutation_rev.
Defined.

(** Two unknown fields and three missing ones: the first unknown field is the
    one named. *)
Lemma predict_names_first_unknown_field_witness :
  predict sample_repr sample_load
    (post_predict [("sepal_length", PyInt 5); ("species", PyStr "setosa");
                   ("colour", PyStr "blue")])
    (disk Absent)
  = (Raise (Failure AtBinding (TypeError (UnexpectedKeyword "species"))),
     disk Absent).
Proof.
  apply (predict_names_first_unknown_field sample_repr sample_load
           (post_predict [("sepal_length", PyInt 5); ("species", PyStr "setosa");
                          ("colour", PyStr "blue")])
           (disk Absent)
           [("sepal_length", PyInt 5)] [("colour", PyStr "blue")]
           "species" (PyStr "setosa")).
  - reflexivity.
  - simpl. intros k' [<-|[]]. tauto.
  - simpl. intuition discriminate.
Defined.

(** The body null, which [get_json] gives as None. *)
Lemma predict_rejects_non_object_witness :
  predict sample_repr sample_load
    (Request POST "/predict" "null" (inr PyNone)) (disk (Regular [x00]))
  = (Raise (Failure AtBinding (TypeError NotAMapping)), disk (Regular [x00])).
Proof.
  apply (predict_rejects_non_object sample_repr sample_load
           (Request POST "/predict" "null" (inr PyNone))
           (disk (Regular [x00])) PyNone).
  - reflexivity.
  - discriminate.
Defined.

Lemma predict_needs_estimator_witness :
  (exists d a b c e,
     req_json (post_predict setosa) = inr (PyDict d) /\
     lookup "sepal_length" d = Some a /\ lookup "sepal_width" d = Some b /\
     lookup "petal_length" d = Some c /\ lookup "petal_width" d = Some e /\
     predict sample_repr sample_load (post_predict setosa) (disk (Regular [x02]))
     = (Raise (Failure AtPredictLookup (AttributeError "predict")),
        World (files (disk (Regular [x02]))) (handles (disk (Regular [x02])))
          (log (disk (Regular [x02]))
           ++ [EvOpen "model.pkl" "rb" (fresh_fd (handles (disk (Regular [x02]))));
               EvRead (fresh_fd (handles (disk (Regular [x02]))));
               EvClose (fresh_fd (handles (disk (Regular [x02]))));
               EvAssemble (PyList [PyList [a; b; c; e]])])
          (snd (sample_load [x02] (process (disk (Regular [x02])))))))
  /\ classify (Failure AtPredictLookup (AttributeError "predict")) = OtherFailure.
Proof.
  apply (predict_needs_estimator sample_repr sample_load
           (post_predict setosa) (disk (Regular [x02])) [x02] (PyDict []));
    reflexivity.
Defined.

Lemma dispatch_elsewhere_leaves_model_witness :
  index (disk (Regular [x00]))
  = (Ok (if method_eqb (req_method (Request HEAD "/" "" (inl (HTTPError 415))))
              OPTIONS
         then "" else "Hello, world!"),
     disk (Regular [x00])).
Proof.
  apply (dispatch_elsewhere_leaves_model sample_repr sample_load
           (Request HEAD "/" "" (inl (HTTPError 415))) index
           (disk (Regular [x00]))).
  - reflexivity.
  - left. discriminate.
Defined.

(** A GET for "/predict" is not routed to the view; an OPTIONS for it is
    answered by Flask, with an empty body. *)
Example dispatch_get_predict :
  dispatch sample_repr sample_load
    (Request GET "/predict" "" (inr (PyDict setosa))) = None
  /\ dispatch sample_repr sample_load
       (Request OPTIONS "/predict" "" (inr (PyDict setosa))) = Some (ret "").
Proof. split; reflexivity. Qed.


(** The constant classifier is replaced by the tree: the next request is
    answered by the tree, class 2 for these measurements. *)
Lemma predict_sees_replaced_artifact_witness :
  fst (predict sample_repr sample_load (post_predict virginica)
         (replace_file "model.pkl" (Regular [x00])
            (snd (predict sample_repr sample_load (post_predict virginica)
                    (disk (Regular [x01]))))))
  = response_to
      (fst (stateless tree_predict
              (batch (PyFloat 0x4019333333333333) (PyFloat 0x400A666666666666)
                     (PyFloat 0x4018000000000000) (PyFloat 0x4004000000000000))
              (snd (sample_load [x00]
                      (process
                         (snd (predict sample_repr sample_load
                                 (post_predict virginica)
                                 (disk (Regular [x01]))))))))).
Proof.
  apply (predict_sees_replaced_artifact sample_repr sample_load
           (post_predict virginica) (disk (Regular [x01])) virginica
           (PyFloat 0x4019333333333333) (PyFloat 0x400A666666666666)
           (PyFloat 0x4018000000000000) (PyFloat 0x4004000000000000)
           [x00] (stateless tree_predict)); reflexivity.
Defined.

Example predict_virginica_before_and_after :
  fst (predict sample_repr sample_load (post_predict virginica)
         (disk (Regular [x01]))) = Ok (response_of 0)
  /\ fst (predict sample_repr sample_load (post_predict virginica)
            (replace_file "model.pkl" (Regular [x00])
               (snd (predict sample_repr sample_load (post_predict virginica)
                       (disk (Regular [x01]))))))
     = Ok (response_of 2).
Proof. split; reflexivity. Qed.
